(** * discord/sticker.py: the [Sticker] entity

    A shallow embedding of [discord/sticker.py] (discord.py 1.7.3 as
    shipped in this repository) and the properties of construction,
    rendering, identity, iteration and CDN url derivation.

    Python objects are modelled by the type [value]; a payload is a
    [dict] with [str] keys, i.e. a [gmap string value]; exceptions are
    threaded through the [result] monad in the order in which the source
    evaluates its statements. *)

From Stdlib Require Import ZArith Ascii String.
From stdpp Require Import base option list strings gmap pretty.

Local Open Scope Z_scope.
Local Open Scope string_scope.

(** ** Python values *)

(** The objects that reach the sticker code.  A [str] is a sequence of
    code points; the model covers the code points below 256, one per
    [ascii].  [VEnum cls name code] is the member [cls.name = code] of an
    enum class: members are singletons.  [VObject a] is an object of a
    class that is not modelled here (the connection state, an asset),
    identified by its address. *)
#[warnings="-register-all"]
Inductive value : Type :=
| VNone
| VBool (b : bool)
| VInt (n : Z)
| VStr (s : string)
| VList (l : list value)
| VEnum (cls name : string) (code : Z)
| VObject (addr : N).

Inductive exn : Type :=
| KeyError (key : string)
| ValueError
| TypeError
| AttributeError (attr : string).

Inductive result (A : Type) : Type :=
| Ok (a : A)
| Raise (e : exn).
Arguments Ok {A} a.
Arguments Raise {A} e.

#[global] Instance result_ret : MRet result := fun A a => Ok a.
#[global] Instance result_bind : MBind result := fun A B f m =>
  match m with
  | Ok a => f a
  | Raise e => Raise e
  end.

(** [try: body except KeyError: handler] *)
Definition try_except_KeyError {A} (body handler : result A) : result A :=
  match body with
  | Raise (KeyError _) => handler
  | r => r
  end.

(** ** The built-ins the module calls *)

Definition code_point (c : ascii) : N := N_of_ascii c.

(** [str.isspace] on one code point: the whitespace that [str.strip()]
    removes. *)
Definition isspace (c : ascii) : bool :=
  let n := code_point c in
  ((9 <=? n) && (n <=? 13) || (28 <=? n) && (n <=? 31)
   || (n =? 32) || (n =? 133) || (n =? 160))%N.

Fixpoint lstrip (s : string) : string :=
  match s with
  | EmptyString => EmptyString
  | String c s' => if isspace c then lstrip s' else s
  end.

Fixpoint rstrip (s : string) : string :=
  match s with
  | EmptyString => EmptyString
  | String c s' =>
      match rstrip s' with
      | EmptyString => if isspace c then EmptyString else String c EmptyString
      | r => String c r
      end
  end.

(** [s.strip()] *)
Definition strip (s : string) : string := rstrip (lstrip s).

(** [s.split(sep)] for a separator of one character: every occurrence
    cuts, empty pieces are kept, and the result is never empty. *)
Fixpoint split (sep : ascii) (s : string) : list string :=
  match s with
  | EmptyString => [EmptyString]
  | String c s' =>
      if Ascii.eqb c sep then EmptyString :: split sep s'
      else match split sep s' with
           | piece :: rest => String c piece :: rest
           | [] => [String c EmptyString]
           end
  end.

(** [int(s)] for a [str], base 10: blanks around, an optional sign, then
    digits in which single underscores may separate digits.  The blanks
    of [int] are not those of [strip]: the code points 28 to 31 are
    rejected.  The interpreter's configurable bound on the number of
    digits is left out. *)
Definition int_isspace (c : ascii) : bool :=
  let n := code_point c in
  ((9 <=? n) && (n <=? 13) || (n =? 32) || (n =? 133) || (n =? 160))%N.

Definition digit_value (c : ascii) : option Z :=
  let n := code_point c in
  if ((48 <=? n) && (n <=? 57))%N then Some (Z.of_N n - 48) else None.

Fixpoint int_lstrip (s : string) : string :=
  match s with
  | EmptyString => EmptyString
  | String c s' => if int_isspace c then int_lstrip s' else s
  end.

Fixpoint all_int_space (s : string) : bool :=
  match s with
  | EmptyString => true
  | String c s' => int_isspace c && all_int_space s'
  end.

(** Scans digits and underscores; [prev_us] tells whether the previous
    character was an underscore.  Returns the number read and what
    follows it. *)
Fixpoint scan_digits (s : string) (prev_us : bool) (acc : Z) : option (Z * string) :=
  match s with
  | EmptyString => if prev_us then None else Some (acc, EmptyString)
  | String c s' =>
      match digit_value c with
      | Some d => scan_digits s' false (10 * acc + d)
      | None =>
          if Ascii.eqb c "_" then
            if prev_us then None else scan_digits s' true acc
          else if prev_us then None else Some (acc, s)
      end
  end.

Definition int_of_str (s : string) : option Z :=
  let body := int_lstrip s in
  let '(negative, digits) :=
    match body with
    | String "+" r => (false, r)
    | String "-" r => (true, r)
    | _ => (false, body)
    end in
  match digits with
  | EmptyString => None
  | String c _ =>
      match digit_value c with
      | None => None
      | Some _ =>
          '(n, rest) ← scan_digits digits false 0;
          if all_int_space rest then Some (if negative : bool then - n else n)
          else None
      end
  end.

(** [int(x)] *)
Definition py_int (x : value) : result Z :=
  match x with
  | VInt n => Ok n
  | VBool b => Ok (if b then 1 else 0)
  | VStr s => match int_of_str s with Some n => Ok n | None => Raise ValueError end
  | VNone | VList _ | VEnum _ _ _ | VObject _ => Raise TypeError
  end.

(** [d[k]] and [d.get(k, default)] *)
Definition getitem (d : gmap string value) (k : string) : result value :=
  match d !! k with
  | Some v => Ok v
  | None => Raise (KeyError k)
  end.

Definition dict_get (d : gmap string value) (k : string) (dflt : value) : value :=
  default dflt (d !! k).

(** [x.split(sep)]: only a [str] has the method. *)
Definition call_split (x : value) (sep : ascii) : result (list string) :=
  match x with
  | VStr s => Ok (split sep s)
  | _ => Raise (AttributeError "split")
  end.

(** [x is None] *)
Definition is_None (x : value) : bool :=
  match x with
  | VNone => true
  | _ => false
  end.

(** ** enums.py *)

(** Modelled from the spec: the enum classes [StickerFormatType] and
    [StickerType] and [try_enum] are defined in enums.py, which is not
    part of the sources at hand.  An enum class is the table of its
    members, a name and an integer code each, in the order of the class
    body. *)
Record EnumClass : Type := {
  enum_name : string;
  enum_members : list (string * Z)
}.

(** Modelled from the spec: the member object of an entry of the table. *)
Definition member_of (cls : EnumClass) (m : string * Z) : value :=
  VEnum (enum_name cls) m.1 m.2.

(** Modelled from the spec: the string of an enum member is its label
    ([png], [apng], [lottie], [gif]). *)
Definition member_str (cls label : string) (code : Z) : string := label.

(** Modelled from the spec: the integer a value is equal to when it is
    looked up among the codes; [True] and [False] are equal to [1] and
    [0], and nothing but a number is equal to a number. *)
Definition as_code (x : value) : option Z :=
  match x with
  | VInt n => Some n
  | VBool b => Some (if b then 1 else 0)
  | _ => None
  end.

(** Modelled from the spec: the enumerated lookup, the first member of
    the class body that has the code. *)
Definition enum_of_code (cls : EnumClass) (x : value) : option value :=
  c ← as_code x;
  member_of cls <$> find (fun m => Z.eqb m.2 c) (enum_members cls).

(** Modelled from the spec: [try_enum(cls, val)] is the member of [cls]
    whose code is [val]; an unrecognized code never fails, the raw value
    is the fallback. *)
Definition try_enum (cls : EnumClass) (val : value) : value :=
  default val (enum_of_code cls val).

(** Modelled from the spec: [cls.name] is the member of that name;
    asking for a name the class does not have raises. *)
Definition enum_getattr (cls : EnumClass) (name : string) : result value :=
  match find (fun m => String.eqb m.1 name) (enum_members cls) with
  | Some m => Ok (member_of cls m)
  | None => Raise (AttributeError name)
  end.

(** [x is m] for an enum member [m]: an object is identical to a member
    only if it is that member; a [str], an [int] or any other object
    never is. *)
Definition is_member (x m : value) : bool :=
  match x, m with
  | VEnum c n _, VEnum c' n' _ => String.eqb c c' && String.eqb n n'
  | _, _ => false
  end.

(** ** The class *)

Record Sticker : Type := {
  _state : value;
  id : Z;
  guild_id : value;
  name : value;
  description : value;
  pack_id : Z;
  format : string;
  image : value;
  type : value;
  version : value;
  available : value;
  tags : list string;
  preview_image : value
}.

(** The owning guild, as far as the constructor looks at it. *)
Module Guild.
Record t : Type := { id : value }.
End Guild.

(** Any object [__eq__] may be handed. *)
Inductive object : Type :=
| OSticker (s : Sticker)
| OValue (v : value).

Definition __slots__ : list string :=
  ["_state"; "id"; "guild_id"; "name"; "description"; "pack_id"; "format";
   "image"; "type"; "version"; "available"; "tags"; "preview_image"].

(** What each slot of a constructed sticker holds, as an object. *)
Definition slot_table (self : Sticker) : list (string * value) :=
  [("_state", _state self); ("id", VInt (id self));
   ("guild_id", guild_id self); ("name", name self);
   ("description", description self); ("pack_id", VInt (pack_id self));
   ("format", VStr (format self)); ("image", image self);
   ("type", type self); ("version", version self);
   ("available", available self); ("tags", VList (VStr <$> tags self));
   ("preview_image", preview_image self)].

(** [getattr(self, attr, default)] *)
Definition getattr (self : Sticker) (attr : string) (dflt : value) : value :=
  match find (fun kv => String.eqb kv.1 attr) (slot_table self) with
  | Some kv => kv.2
  | None => dflt
  end.

Section Sticker.

(** The parts of the package the class is linked with. *)
Variable StickerFormatType : EnumClass.
Variable StickerType : EnumClass.
(** [Asset._from_sticker_url(state, sticker, size=size)], of asset.py *)
Variable Asset_from_sticker_url : value -> Sticker -> value -> result value.
(** [str(x)] for a list or an object of a class defined elsewhere *)
Variable str_foreign : value -> string.

(** [str(x)] *)
Definition py_str (x : value) : string :=
  match x with
  | VNone => "None"
  | VBool b => if b then "True" else "False"
  | VInt n => pretty n
  | VStr s => s
  | VEnum cls label code => member_str cls label code
  | VList _ | VObject _ => str_foreign x
  end.

Definition _from_data (guild_id _state : value) (sticker : gmap string value)
  : result Sticker :=
  raw_id ← getitem sticker "id";
  id ← py_int raw_id;
  name ← getitem sticker "name";
  description ← getitem sticker "description";
  pack_id ← py_int (dict_get sticker "pack_id" (VInt 0));
  format_type ← getitem sticker "format_type";
  let format := py_str (try_enum StickerFormatType format_type) in
  image ← try_except_KeyError (getitem sticker "asset") (Ok (VStr ""));
  type_code ← getitem sticker "type";
  let type := try_enum StickerType type_code in
  version ← getitem sticker "version";
  available ← getitem sticker "available";
  tags ← try_except_KeyError
           (t ← getitem sticker "tags";
            pieces ← call_split t ",";
            Ok (map strip pieces))
           (Ok []);
  let preview_image := dict_get sticker "preview_asset" VNone in
  Ok {| _state := _state; id := id; guild_id := guild_id; name := name;
        description := description; pack_id := pack_id; format := format;
        image := image; type := type; version := version;
        available := available; tags := tags;
        preview_image := preview_image |}.

Definition __init__ (guild : Guild.t) (state : value) (data : gmap string value)
  : result Sticker :=
  let guild_id := Guild.id guild in
  _from_data guild_id state data.

(** The pairs the generator yields, in the order it yields them.  No
    slot name is empty, so [attr[0]] is always defined. *)
Definition _iterator (self : Sticker) : list (string * value) :=
  attr ← __slots__;
  match attr with
  | String c _ =>
      if negb (Ascii.eqb c "_") then
        let value := getattr self attr VNone in
        if negb (is_None value) then [(attr, value)] else []
      else []
  | EmptyString => []
  end.

Definition __iter__ (self : Sticker) : list (string * value) :=
  _iterator self.

Definition __str__ (self : Sticker) : string :=
  if String.eqb (format self) "apng" || String.eqb (format self) "lottie"
     || String.eqb (format self) "gif"
  then "<a:" +:+ py_str (name self) +:+ ":" +:+ pretty (id self) +:+ ">"
  else "<:" +:+ py_str (name self) +:+ ":" +:+ pretty (id self) +:+ ">".

Definition __eq__ (self : Sticker) (other : object) : bool :=
  match other with
  | OSticker other => Z.eqb (id self) (id other)
  | OValue _ => false
  end.

Definition __ne__ (self : Sticker) (other : object) : bool :=
  negb (__eq__ self other).

Definition __hash__ (self : Sticker) : Z :=
  Z.shiftr (id self) 22.

(** [size] is keyword-only with default 1024: [None] stands for a call
    that leaves it out. *)
Definition image_url_as (self : Sticker) (size : option value) : result value :=
  let size := default (VInt 1024) size in
  lottie ← enum_getattr StickerType "lottie";
  if is_member (VStr (format self)) lottie then Ok VNone
  else Asset_from_sticker_url (_state self) self size.

Definition image_url (self : Sticker) : result value :=
  image_url_as self None.

(** What a successful [_from_data] has read from the payload, field by
    field. *)
Record built_from (gid state : value) (p : gmap string value) (st : Sticker)
  : Prop := {
  bf_state : _state st = state;
  bf_guild_id : guild_id st = gid;
  bf_id : exists raw, p !! "id" = Some raw /\ py_int raw = Ok (id st);
  bf_name : p !! "name" = Some (name st);
  bf_description : p !! "description" = Some (description st);
  bf_pack_id : py_int (dict_get p "pack_id" (VInt 0)) = Ok (pack_id st);
  bf_format : exists code, p !! "format_type" = Some code
                /\ format st = py_str (try_enum StickerFormatType code);
  bf_image : image st = default (VStr "") (p !! "asset");
  bf_type : exists code, p !! "type" = Some code
              /\ type st = try_enum StickerType code;
  bf_version : p !! "version" = Some (version st);
  bf_available : p !! "available" = Some (available st);
  bf_tags : match p !! "tags" with
            | None => tags st = []
            | Some (VStr s) => tags st = map strip (split "," s)
            | Some _ => False
            end;
  bf_preview_image : preview_image st = default VNone (p !! "preview_asset")
}.

End Sticker.

(** ** The statements of the specification, in its own words *)

Definition fails {A} (r : result A) : bool :=
  match r with
  | Raise _ => true
  | Ok _ => false
  end.

Definition required_keys : list string :=
  ["id"; "name"; "description"; "format_type"; "type"; "version"; "available"].

Definition is_missing (p : gmap string value) (k : string) : bool :=
  match p !! k with
  | None => true
  | Some _ => false
  end.

Definition missing_required (p : gmap string value) : bool :=
  existsb (is_missing p) required_keys.

(** The key is present and [int] rejects what it maps to. *)
Definition not_numeric (p : gmap string value) (k : string) : bool :=
  match p !! k with
  | Some v => fails (py_int v)
  | None => false
  end.

(** The key [tags] is present and does not map to a [str]. *)
Definition tags_not_str (p : gmap string value) : bool :=
  match p !! "tags" with
  | Some (VStr _) | None => false
  | Some _ => true
  end.

(** When construction fails, as the specification words it. *)
Definition fails_as_specified (p : gmap string value) : bool :=
  missing_required p || not_numeric p "id" || not_numeric p "pack_id".

(** When construction fails. *)
Definition fails_when (p : gmap string value) : bool :=
  fails_as_specified p || tags_not_str p.

(** Which exception comes out of a failed construction, and why. *)
Definition raised_for (p : gmap string value) (e : exn) : Prop :=
  match e with
  | KeyError k => k ∈ required_keys /\ p !! k = None
  | ValueError | TypeError => not_numeric p "id" || not_numeric p "pack_id" = true
  | AttributeError a => a = "split" /\ tags_not_str p = true
  end.

(** The animated and the plain token. *)
Definition animated_token (name id : string) : string :=
  "<a:" +:+ name +:+ ":" +:+ id +:+ ">".

Definition plain_token (name id : string) : string :=
  "<:" +:+ name +:+ ":" +:+ id +:+ ">".

Definition animated_formats : list string := ["apng"; "lottie"; "gif"].

(** The public fields in declaration order. *)
Definition public_fields (self : Sticker) : list (string * value) :=
  [("id", VInt (id self)); ("guild_id", guild_id self); ("name", name self);
   ("description", description self); ("pack_id", VInt (pack_id self));
   ("format", VStr (format self)); ("image", image self); ("type", type self);
   ("version", version self); ("available", available self);
   ("tags", VList (VStr <$> tags self)); ("preview_image", preview_image self)].

Definition present (kv : string * value) : bool := negb (is_None kv.2).

(** A code the enum class does not know. *)
Definition unrecognized (cls : EnumClass) (code : value) : Prop :=
  enum_of_code cls code = None.

(** ** A concrete configuration, for examples *)

Module Example.

Definition StickerFormatType : EnumClass :=
  {| enum_name := "StickerFormatType";
     enum_members := [("png", 1); ("apng", 2); ("lottie", 3); ("gif", 4)] |}.

Definition StickerType : EnumClass :=
  {| enum_name := "StickerType";
     enum_members := [("png", 1); ("apng", 2); ("lottie", 3)] |}.

Definition state : value := VObject 1.
Definition guild : Guild.t := {| Guild.id := VInt 41771983423143937 |}.

(** A resolver that hands out the same asset object for every call. *)
Definition resolver (st : value) (s : Sticker) (size : value) : result value :=
  Ok (VObject 2).

Definition str_foreign (x : value) : string := "<object>".

(** The payload of the specification's round-trip property. *)
Definition minimal : gmap string value :=
  list_to_map
    [("id", VStr "123"); ("name", VStr "n"); ("description", VStr "d");
     ("format_type", VInt 1); ("type", VInt 1); ("version", VInt 1);
     ("available", VBool true)].

Definition lottie_payload : gmap string value :=
  <["format_type" := VInt 3]> minimal.

Definition tagged (t : value) : gmap string value :=
  <["tags" := t]> minimal.

Definition full : gmap string value :=
  <["pack_id" := VStr "7"]> (<["asset" := VStr "abc"]>
    (<["preview_asset" := VStr "pre"]> (tagged (VStr "a, b ,c")))).

Definition unknown_codes : gmap string value :=
  <["format_type" := VInt 99]> (<["type" := VStr "guild"]> minimal).

Definition construct (p : gmap string value) : result Sticker :=
  __init__ StickerFormatType StickerType str_foreign guild state p.

(** The stickers these payloads construct. *)
Definition sticker (pack_id : Z) (format : string) (image type : value)
  (tags : list string) (preview_image : value) : Sticker :=
  {| _state := state; id := 123; guild_id := Guild.id guild;
     name := VStr "n"; description := VStr "d"; pack_id := pack_id;
     format := format; image := image; type := type; version := VInt 1;
     available := VBool true; tags := tags; preview_image := preview_image |}.

Definition png_type : value := VEnum "StickerType" "png" 1.

Definition minimal_sticker : Sticker :=
  sticker 0 "png" (VStr "") png_type [] VNone.

Definition lottie_sticker : Sticker :=
  sticker 0 "lottie" (VStr "") png_type [] VNone.

Definition full_sticker : Sticker :=
  sticker 7 "png" (VStr "abc") png_type ["a"; "b"; "c"] (VStr "pre").

Definition empty_tags_sticker : Sticker :=
  sticker 0 "png" (VStr "") png_type [""] VNone.

Definition unknown_sticker : Sticker :=
  sticker 0 "99" (VStr "") (VStr "guild") [] VNone.

End Example.

(** ** The [guild] property *)

Section Guild_lookup.

(** [state._get_guild(guild_id)], of state.py: the guild or [None]. *)
Variable _get_guild : value -> value -> result value.

Definition guild (self : Sticker) : result value :=
  _get_guild (_state self) (guild_id self).

End Guild_lookup.

(** ** Notions used to state what the class guarantees *)

(** The keys [_from_data] reads, in the order in which it reads them. *)
Definition payload_keys : list string :=
  ["id"; "name"; "description"; "pack_id"; "format_type"; "asset"; "type";
   "version"; "available"; "tags"; "preview_asset"].

(** The required keys read after [pack_id] has been converted. *)
Definition keys_after_pack_id : list string :=
  ["format_type"; "type"; "version"; "available"].

(** [s.count(c)] for one character. *)
Fixpoint count_char (c : ascii) (s : string) : nat :=
  match s with
  | EmptyString => 0
  | String c' s' => (if Ascii.eqb c' c then 1 else 0) + count_char c s'
  end.

(** Whether a predicate holds of every character. *)
Fixpoint all_chars (f : ascii -> bool) (s : string) : bool :=
  match s with
  | EmptyString => true
  | String c s' => f c && all_chars f s'
  end.

Definition first_char (s : string) : option ascii :=
  match s with
  | EmptyString => None
  | String c _ => Some c
  end.

Fixpoint last_char (s : string) : option ascii :=
  match s with
  | EmptyString => None
  | String c EmptyString => Some c
  | String _ s' => last_char s'
  end.

(** [sep.join(pieces)] *)
Fixpoint join (sep : string) (pieces : list string) : string :=
  match pieces with
  | [] => EmptyString
  | [piece] => piece
  | piece :: rest => piece +:+ sep +:+ join sep rest
  end.

(** The names of the slots that iteration can yield. *)
Definition public_slots : list string :=
  ["id"; "guild_id"; "name"; "description"; "pack_id"; "format"; "image";
   "type"; "version"; "available"; "tags"; "preview_image"].

(** The same sticker, owned by another guild and state. *)
Definition with_owner (gid state : value) (self : Sticker) : Sticker :=
  {| _state := state; id := id self; guild_id := gid; name := name self;
     description := description self; pack_id := pack_id self;
     format := format self; image := image self; type := type self;
     version := version self; available := available self;
     tags := tags self; preview_image := preview_image self |}.

(** Whether [__str__] takes the animated branch. *)
Definition is_animated (self : Sticker) : bool :=
  bool_decide (format self ∈ animated_formats).

(** ** More payloads, for examples *)

Module Sample.

(** A payload with a key the class does not read. *)
Definition with_guild_id : gmap string value :=
  <["guild_id" := VInt 5]> Example.minimal.

(** A payload whose [id] is no number. *)
Definition bad_id : gmap string value :=
  <["id" := VStr "abc"]> Example.minimal.

(** A payload whose [description] is [null]. *)
Definition null_description : gmap string value :=
  <["description" := VNone]> Example.minimal.

Definition null_description_sticker : Sticker :=
  {| _state := Example.state; id := 123; guild_id := Guild.id Example.guild;
     name := VStr "n"; description := VNone; pack_id := 0; format := "png";
     image := VStr ""; type := Example.png_type; version := VInt 1;
     available := VBool true; tags := []; preview_image := VNone |}.

Definition comma_tags : gmap string value := Example.tagged (VStr "a,,b").

Definition comma_tags_sticker : Sticker :=
  Example.sticker 0 "png" (VStr "") Example.png_type ["a"; ""; "b"] VNone.

(** Another guild and another state. *)
Definition other_state : value := VObject 9.
Definition other_guild_id : value := VInt 7.

(** A state that knows no guild. *)
Definition no_guild (state gid : value) : result value := Ok VNone.

End Sample.


(** ** Construction *)

Section Construction.

Context (StickerFormatType StickerType : EnumClass).
Context (str_foreign : value -> string).

Abbreviation from_data := (_from_data StickerFormatType StickerType str_foreign).
Abbreviation built := (built_from StickerFormatType StickerType str_foreign).

Ltac unfold_from_data :=
  unfold _from_data, getitem, try_except_KeyError, call_split, dict_get;
  unfold mbind, result_bind.

(** Closes a goal [true = b1 || ... || bn] in which one [bi] is [true]. *)
Ltac raised :=
  simpl; rewrite ?orb_true_r; simpl; try done; repeat case_match; done.

Lemma from_data_built gid state p st :
  from_data gid state p = Ok st -> built gid state p st.
Proof.
  unfold_from_data. intros H.
  repeat (case_match; simplify_eq/=); split; simpl; eauto;
    repeat match goal with
      | E : ?d !! ?k = _ |- context [?d !! ?k] => rewrite E
      end; done.
Qed.

Lemma built_from_data gid state p st :
  built gid state p st -> from_data gid state p = Ok st.
Proof.
  intros [Hs Hg (raw & Hid & Hint) Hn Hd Hp (fc & Hf & Hfmt) Hi
          (tc & Ht & Hty) Hv Ha Htags Hpre].
  destruct st; simpl in *. unfold_from_data. unfold dict_get in Hp.
  rewrite Hid; simpl. rewrite Hint; simpl. rewrite Hn, Hd; simpl.
  rewrite Hp; simpl. rewrite Hf, Ht, Hv, Ha; simpl.
  destruct (p !! "asset"); simpl in Hi;
    (destruct (p !! "tags") as [[]|]; try done; simpl; by subst).
Qed.

Lemma from_data_fails gid state p :
  fails (from_data gid state p) = fails_when p.
Proof.
  unfold fails_when, fails_as_specified, tags_not_str, not_numeric,
    missing_required, required_keys.
  cbn [existsb]. unfold is_missing. unfold_from_data.
  destruct (p !! "id") as [raw|]; [|done].
  destruct (py_int raw); [|raised].
  destruct (p !! "name"); [|raised].
  destruct (p !! "description"); [|raised].
  destruct (p !! "pack_id") as [pk|]; simpl;
    [destruct (py_int pk); [|raised]|];
    (destruct (p !! "format_type"); [|raised];
     destruct (p !! "type"); [|destruct (p !! "asset"); raised];
     destruct (p !! "version"); [|destruct (p !! "asset"); raised];
     destruct (p !! "available"); [|destruct (p !! "asset"); raised];
     destruct (p !! "asset"); simpl;
       by destruct (p !! "tags") as [[]|]).
Qed.


Lemma from_data_Ok gid state p :
  fails_when p = false -> exists st, from_data gid state p = Ok st.
Proof.
  rewrite <- (from_data_fails gid state p).
  destruct (from_data gid state p) as [st|e]; [eauto | discriminate].
Qed.

Lemma py_int_raises v e :
  py_int v = Raise e -> e = ValueError \/ e = TypeError.
Proof.
  destruct v as [|b|n|s|l|cls nm c|a]; simpl; intros H;
    try discriminate; try (injection H as <-; by auto).
  destruct (int_of_str s); [discriminate | injection H as <-; auto].
Qed.

Lemma from_data_raises gid state p e :
  from_data gid state p = Raise e -> raised_for p e.
Proof.
  unfold_from_data. intros H.
  repeat (case_match; simplify_eq/=);
    try match goal with
      | E : py_int _ = Raise ?e |- raised_for _ ?e =>
          destruct (py_int_raises _ _ E) as [-> | ->]
      end;
    unfold raised_for, tags_not_str, not_numeric, required_keys;
    repeat match goal with
      | E : ?d !! ?k = _ |- context [?d !! ?k] => rewrite E
      end;
    try (split; [by repeat constructor | done]);
    try (split; done);
    repeat match goal with
      | E : py_int _ = _ |- _ => rewrite E
      end; simpl; rewrite ?orb_true_r; try done;
    match goal with
    | E : py_int (default _ (?d !! ?k)) = _ |- _ =>
        destruct (d !! k); simpl in E; [by rewrite E | discriminate]
    end.
Qed.

Lemma split_not_nil sep s : split sep s <> [].
Proof.
  destruct s as [|c s]; simpl; [done|].
  destruct (Ascii.eqb c sep); [done|]. by destruct (split sep s).
Qed.

(** The codes only have to be there: what they are does not decide
    whether construction fails. *)
Lemma fails_when_code p k v :
  k = "format_type" \/ k = "type" -> is_Some (p !! k) ->
  fails_when (<[k := v]> p) = fails_when p.
Proof.
  intros Hk [w Hw].
  unfold fails_when, fails_as_specified, tags_not_str, not_numeric,
    missing_required, required_keys.
  cbn [existsb]. unfold is_missing.
  destruct Hk as [-> | ->];
    rewrite ?lookup_insert_eq, ?lookup_insert_ne by done; by rewrite Hw.
Qed.

(** C4: construction sets [tags] to the pieces of [payload.tags] cut at
    every [","], each stripped of surrounding whitespace, pieces that are
    empty after stripping included, so that ["a,,b"] gives
    [["a"; ""; "b"]] and ["a, b ,c"] gives [["a"; "b"; "c"]]; without the
    key, [tags] is the empty list.  A payload that has what C6 asks for
    and whose [tags] is a [str] or absent does construct. *)
Theorem tags_split_and_stripped gid state p :
  (fails_when p = false -> exists st, from_data gid state p = Ok st)
  /\ forall st, from_data gid state p = Ok st ->
       (forall s, p !! "tags" = Some (VStr s) ->
                  tags st = strip <$> split "," s)
       /\ (p !! "tags" = None -> tags st = [])
       /\ (p !! "tags" = Some (VStr "a,,b") -> tags st = ["a"; ""; "b"])
       /\ (p !! "tags" = Some (VStr "a, b ,c") -> tags st = ["a"; "b"; "c"]).
Proof.
  split; [apply from_data_Ok|].
  intros st [_ _ _ _ _ _ _ _ _ _ _ Htags _]%from_data_built.
  repeat split; intros; simplify_eq/=;
    match goal with E : p !! "tags" = _ |- _ => by rewrite E in Htags end.
Qed.

(** C5: the optional fields default and their absence never fails:
    [pack_id] is [0] without the key [pack_id] and [int] of its value
    with it, [image] is the empty string without the key [asset] and its
    value with it, [preview_image] is [None] without the key
    [preview_asset] and its value with it; no exception raised by
    construction is a [KeyError] for an optional key. *)
Theorem optional_fields_default gid state p :
  (fails_when p = false -> exists st, from_data gid state p = Ok st)
  /\ (forall e k, from_data gid state p = Raise e ->
        k ∈ ["pack_id"; "asset"; "preview_asset"; "tags"] -> e <> KeyError k)
  /\ forall st, from_data gid state p = Ok st ->
       (p !! "pack_id" = None -> pack_id st = 0)
       /\ (forall v, p !! "pack_id" = Some v -> py_int v = Ok (pack_id st))
       /\ (p !! "asset" = None -> image st = VStr "")
       /\ (forall v, p !! "asset" = Some v -> image st = v)
       /\ (p !! "preview_asset" = None -> preview_image st = VNone)
       /\ (forall v, p !! "preview_asset" = Some v -> preview_image st = v).
Proof.
  split; [apply from_data_Ok|]. split.
  - intros e k He%from_data_raises Hk ->. destruct He as [Hreq _].
    unfold required_keys in Hreq.
    apply list_elem_of_In in Hreq, Hk. simpl in Hreq, Hk.
    intuition congruence.
  - intros st [_ _ _ _ _ Hp _ Hi _ _ _ _ Hpre]%from_data_built.
    unfold dict_get in Hp.
    repeat split; intros; simplify_eq/=;
      repeat match goal with
        | E : p !! _ = _ |- _ => rewrite E in *
        end; simplify_eq/=; done.
Qed.

(** C6, amended: construction fails exactly when a required key is
    absent, or [int] rejects the value of [id] or of [pack_id], or [tags]
    is present and is not a [str].  The exception is then, in this
    order, the [KeyError] of a required key, the [ValueError] or
    [TypeError] of [int], or the [AttributeError] of the missing [split];
    it passes through [__init__] unchanged, and a failed construction
    hands out no entity. *)
Theorem construction_fails_exactly gid state guild p :
  fails (from_data gid state p)
  = missing_required p || not_numeric p "id" || not_numeric p "pack_id"
    || tags_not_str p
  /\ match from_data gid state p with
     | Ok _ => fails_when p = false
     | Raise e => raised_for p e
     end
  /\ __init__ StickerFormatType StickerType str_foreign guild state p
     = from_data (Guild.id guild) state p.
Proof.
  split; [apply from_data_fails|]. split; [|done].
  destruct (from_data gid state p) as [st|e] eqn:E.
  - by rewrite <- (from_data_fails gid state p), E.
  - by apply (from_data_raises gid state).
Qed.

(** C7: a [format_type] or [type] code that the enum class does not know
    never makes construction fail: whatever the two codes are replaced
    by, construction fails or succeeds as before; [format] is then the
    string of the raw code and [type] the raw code itself. *)
Theorem unrecognized_codes_fall_back gid state p fcode tcode :
  p !! "format_type" = Some fcode -> p !! "type" = Some tcode ->
  (forall f t, fails (from_data gid state (<["format_type" := f]> (<["type" := t]> p)))
               = fails (from_data gid state p))
  /\ forall st, from_data gid state p = Ok st ->
       (unrecognized StickerFormatType fcode ->
          format st = py_str str_foreign fcode)
       /\ (unrecognized StickerType tcode -> type st = tcode).
Proof.
  intros Hf Ht. split.
  - intros f t. rewrite !from_data_fails.
    rewrite !fails_when_code; eauto.
    by rewrite lookup_insert_ne.
  - intros st [_ _ _ _ _ _ (c & Hc & Hfmt) _ (c' & Hc' & Hty) _ _ _ _]%from_data_built.
    simplify_eq. unfold unrecognized, try_enum in *.
    split; intros E; [rewrite Hfmt | rewrite Hty]; by rewrite E.
Qed.

(** C10: a payload whose [tags] is the empty string gives the list with
    one empty string, not the empty list; [tags] is the empty list only
    for a payload without the key. *)
Theorem empty_tags_string gid state p st :
  from_data gid state p = Ok st ->
  (p !! "tags" = Some (VStr "") -> tags st = [""])
  /\ (tags st = [] <-> p !! "tags" = None).
Proof.
  intros [_ _ _ _ _ _ _ _ _ _ _ Htags _]%from_data_built.
  split; [by intros E; rewrite E in Htags|].
  destruct (p !! "tags") as [[]|]; try done.
  rewrite Htags. split; [|done].
  intros E%map_eq_nil. by apply split_not_nil in E.
Qed.

End Construction.

(** ** Rendering, identity, iteration and the image url *)

Section Operations.

Context (StickerFormatType StickerType : EnumClass).
Context (resolver : value -> Sticker -> value -> result value).
Context (str_foreign : value -> string).

Abbreviation str_of := (py_str str_foreign).

Lemma animated_test f :
  String.eqb f "apng" || String.eqb f "lottie" || String.eqb f "gif"
  = bool_decide (f ∈ animated_formats).
Proof.
  unfold animated_formats.
  destruct (String.eqb_spec f "apng") as [-> | H1]; [done|].
  destruct (String.eqb_spec f "lottie") as [-> | H2]; [done|].
  destruct (String.eqb_spec f "gif") as [-> | H3]; [done|].
  symmetry. apply bool_decide_eq_false.
  intros H%list_elem_of_In. simpl in H. intuition congruence.
Qed.

(** The test against the lottie member never succeeds: [format] holds a
    [str], which is no enum member. *)
Lemma image_url_as_resolves self size :
  image_url_as StickerType resolver self size
  = (_ ← enum_getattr StickerType "lottie";
     resolver (_state self) self (default (VInt 1024) size)).
Proof.
  unfold image_url_as. by destruct (enum_getattr StickerType "lottie").
Qed.

(** C1, on the code: a sticker built from a payload whose [format_type]
    is the code of the member [lottie] has the format ["lottie"], and
    its image url is whatever the resolver answers for it, for every
    size: [None] is not returned on account of the format. *)
Theorem image_url_as_lottie_sticker gid state p st c size :
  enum_of_code StickerFormatType (VInt c)
    = Some (VEnum (enum_name StickerFormatType) "lottie" c) ->
  p !! "format_type" = Some (VInt c) ->
  _from_data StickerFormatType StickerType str_foreign gid state p = Ok st ->
  format st = "lottie"
  /\ image_url_as StickerType resolver st size
     = (_ ← enum_getattr StickerType "lottie";
        resolver state st (default (VInt 1024) size)).
Proof.
  intros Hc Hp [Hs _ _ _ _ _ (c' & Hc' & Hfmt) _ _ _ _ _ _]%from_data_built.
  simplify_eq. split.
  - rewrite Hfmt. unfold try_enum. by rewrite Hc.
  - by rewrite image_url_as_resolves.
Qed.

(** C2: [str(x)] depends on [format], [name] and [id] only; it is the
    animated token [<a:NAME:ID>] exactly when [format] is one of
    [apng], [lottie], [gif], and the plain token [<:NAME:ID>] exactly
    when it is anything else. *)
Theorem str_token (a b : Sticker) :
  __str__ str_foreign a
  = (if bool_decide (format a ∈ animated_formats)
     then animated_token (str_of (name a)) (pretty (id a))
     else plain_token (str_of (name a)) (pretty (id a)))
  /\ (__str__ str_foreign a = animated_token (str_of (name a)) (pretty (id a))
      <-> format a ∈ animated_formats)
  /\ (__str__ str_foreign a = plain_token (str_of (name a)) (pretty (id a))
      <-> format a ∉ animated_formats)
  /\ (format a = format b -> name a = name b -> id a = id b ->
      __str__ str_foreign a = __str__ str_foreign b).
Proof.
  unfold __str__. rewrite !animated_test.
  split; [by case_bool_decide|].
  split; [|split].
  - by case_bool_decide as H; split.
  - by case_bool_decide as H; split.
  - by intros -> -> ->.
Qed.

(** C3: [a == o] holds exactly when [o] is a sticker with the id of [a],
    whatever the other fields are; the hash of [a] is its id shifted
    right by 22 bits, that is, divided by [2^22] rounding down; equal
    stickers have equal hashes. *)
Theorem eq_hash_by_id (a b : Sticker) (o : object) :
  (__eq__ a o = true <-> exists s, o = OSticker s /\ id a = id s)
  /\ __ne__ a o = negb (__eq__ a o)
  /\ __hash__ a = Z.shiftr (id a) 22
  /\ __hash__ a = id a / 2 ^ 22
  /\ (__eq__ a (OSticker b) = true -> __hash__ a = __hash__ b).
Proof.
  unfold __hash__, __ne__. repeat split.
  - destruct o as [s|v]; simpl; [|done].
    intros E%Z.eqb_eq. eauto.
  - intros (s & -> & E). simpl. by apply Z.eqb_eq.
  - by rewrite Z.shiftr_div_pow2.
  - simpl. by intros ->%Z.eqb_eq.
Qed.

Lemma filter_cons_yield {A} (f : A -> bool) x l :
  List.filter f (x :: l) = ((if f x then [x] else []) ++ List.filter f l)%list.
Proof. simpl. by destruct (f x). Qed.

(** C8: iterating over a sticker yields the pairs of name and value of
    the public fields (every slot but [_state]) whose value is not
    [None], in the order of [__slots__]; every call yields that same
    finite sequence from its start. *)
Theorem iterator_public_fields (self : Sticker) :
  _iterator self = List.filter present (public_fields self)
  /\ __iter__ self = _iterator self
  /\ (public_fields self).*1
     = List.filter (fun attr => negb (String.prefix "_" attr)) __slots__
  /\ (length (_iterator self) <= 12)%nat.
Proof.
  assert (E : _iterator self = List.filter present (public_fields self)).
  { unfold public_fields. rewrite !filter_cons_yield.
    unfold _iterator, present. by cbn -[is_None]. }
  split; [done|]. split; [done|]. split; [done|].
  rewrite E. apply (List.filter_length_le present (public_fields self)).
Qed.

(** C9: the property [image_url] is [image_url_as] with size 1024. *)
Theorem image_url_default_size (self : Sticker) :
  image_url StickerType resolver self
  = image_url_as StickerType resolver self (Some (VInt 1024)).
Proof. reflexivity. Qed.

End Operations.

(** ** The theorems at concrete payloads *)

Lemma image_url_as_lottie_sticker_witness :
  Example.construct Example.lottie_payload = Ok Example.lottie_sticker
  /\ format Example.lottie_sticker = "lottie"
  /\ image_url_as Example.StickerType Example.resolver Example.lottie_sticker
       (Some (VInt 1024)) = Ok (VObject 2).
Proof.
  assert (H : Example.construct Example.lottie_payload
              = Ok Example.lottie_sticker) by (vm_compute; reflexivity).
  split; [exact H|].
  destruct (image_url_as_lottie_sticker
              Example.StickerFormatType Example.StickerType Example.resolver
              Example.str_foreign (Guild.id Example.guild) Example.state
              Example.lottie_payload Example.lottie_sticker 3
              (Some (VInt 1024)) eq_refl eq_refl H) as [Hf Hu].
  split; [exact Hf|]. rewrite Hu. reflexivity.
Defined.

Lemma str_token_witness :
  __str__ Example.str_foreign Example.lottie_sticker = "<a:n:123>"
  /\ __str__ Example.str_foreign Example.full_sticker
     = __str__ Example.str_foreign Example.minimal_sticker.
Proof.
  split; [reflexivity|].
  apply (str_token Example.str_foreign Example.full_sticker
           Example.minimal_sticker); reflexivity.
Defined.

Lemma eq_hash_by_id_witness :
  __eq__ Example.full_sticker (OSticker Example.lottie_sticker) = true
  /\ __hash__ Example.full_sticker = __hash__ Example.lottie_sticker.
Proof.
  split; [reflexivity|].
  apply (eq_hash_by_id Example.full_sticker Example.lottie_sticker
           (OValue VNone)); reflexivity.
Defined.

Lemma tags_split_and_stripped_witness :
  Example.construct Example.full = Ok Example.full_sticker
  /\ tags Example.full_sticker = ["a"; "b"; "c"].
Proof.
  assert (H : Example.construct Example.full = Ok Example.full_sticker)
    by (vm_compute; reflexivity).
  split; [exact H|].
  destruct (tags_split_and_stripped
              Example.StickerFormatType Example.StickerType
              Example.str_foreign (Guild.id Example.guild) Example.state
              Example.full) as [_ Hst].
  destruct (Hst Example.full_sticker H) as (_ & _ & _ & Habc).
  apply Habc. vm_compute; reflexivity.
Defined.

Lemma optional_fields_default_witness :
  Example.construct Example.minimal = Ok Example.minimal_sticker
  /\ pack_id Example.minimal_sticker = 0
  /\ image Example.minimal_sticker = VStr ""
  /\ preview_image Example.minimal_sticker = VNone.
Proof.
  assert (H : Example.construct Example.minimal = Ok Example.minimal_sticker)
    by (vm_compute; reflexivity).
  split; [exact H|].
  destruct (optional_fields_default
              Example.StickerFormatType Example.StickerType
              Example.str_foreign (Guild.id Example.guild) Example.state
              Example.minimal) as (_ & _ & Hst).
  destruct (Hst Example.minimal_sticker H) as (Hp & _ & Hi & _ & Hpre & _).
  split; [apply Hp; vm_compute; reflexivity|].
  split; [apply Hi; vm_compute; reflexivity|].
  apply Hpre; vm_compute; reflexivity.
Defined.

Lemma unrecognized_codes_fall_back_witness :
  Example.construct Example.unknown_codes = Ok Example.unknown_sticker
  /\ format Example.unknown_sticker = "99"
  /\ type Example.unknown_sticker = VStr "guild".
Proof.
  assert (H : Example.construct Example.unknown_codes
              = Ok Example.unknown_sticker) by (vm_compute; reflexivity).
  split; [exact H|].
  destruct (unrecognized_codes_fall_back
              Example.StickerFormatType Example.StickerType
              Example.str_foreign (Guild.id Example.guild) Example.state
              Example.unknown_codes (VInt 99) (VStr "guild")
              eq_refl eq_refl) as [_ Hst].
  destruct (Hst Example.unknown_sticker H) as [Hf Ht].
  split; [apply Hf | apply Ht]; vm_compute; reflexivity.
Defined.

Lemma empty_tags_string_witness :
  Example.construct (Example.tagged (VStr "")) = Ok Example.empty_tags_sticker
  /\ tags Example.empty_tags_sticker = [""].
Proof.
  assert (H : Example.construct (Example.tagged (VStr ""))
              = Ok Example.empty_tags_sticker) by (vm_compute; reflexivity).
  split; [exact H|].
  apply (empty_tags_string
           Example.StickerFormatType Example.StickerType Example.str_foreign
           (Guild.id Example.guild) Example.state
           (Example.tagged (VStr "")) Example.empty_tags_sticker H).
  vm_compute; reflexivity.
Defined.

(** C6 as the specification words it fails on a payload whose [tags] is
    [null]: every required key is there and [id] is numeric, yet
    construction raises. *)
Lemma construction_fails_on_null_tags :
  Example.construct (Example.tagged VNone) = Raise (AttributeError "split")
  /\ fails (Example.construct (Example.tagged VNone)) = true
  /\ fails_as_specified (Example.tagged VNone) = false.
Proof. repeat split; vm_compute; reflexivity. Qed.

(** ** Identity *)







(** ** More on construction *)

Section Construction_order.

Context (StickerFormatType StickerType : EnumClass).
Context (str_foreign : value -> string).

Abbreviation from_data' := (_from_data StickerFormatType StickerType str_foreign).

Ltac unfold_from_data :=
  unfold _from_data, getitem, try_except_KeyError, call_split, dict_get;
  unfold mbind, result_bind.

(** Closes [r = Raise e <-> ...] when [r] is no error of [int] and the
    right-hand side asks for one. *)
Ltac other_failure He :=
  split;
  [ intros E; simplify_eq; by destruct He
  | intros [(? & ? & ?) | (? & ? & ? & ? & ? & ? & ?)];
    simplify_eq; congruence ].

Lemma not_payload_key k :
  k ∉ payload_keys ->
  k <> "id" /\ k <> "name" /\ k <> "description" /\ k <> "pack_id"
  /\ k <> "format_type" /\ k <> "asset" /\ k <> "type" /\ k <> "version"
  /\ k <> "available" /\ k <> "tags" /\ k <> "preview_asset".
Proof.
  intros H. repeat split; intros ->; apply H, list_elem_of_In; simpl; tauto.
Qed.

(** X4: construction reads eleven keys and no other: adding, changing or
    removing any other key of the payload changes neither the sticker
    nor the exception. *)
Theorem unread_keys_ignored gid state p k v :
  k ∉ payload_keys ->
  from_data' gid state (<[k := v]> p) = from_data' gid state p
  /\ from_data' gid state (delete k p) = from_data' gid state p.
Proof.
  intros (?&?&?&?&?&?&?&?&?&?&?)%not_payload_key.
  unfold_from_data.
  by rewrite !lookup_insert_ne, !lookup_delete_ne by done.
Qed.

Lemma with_owner_built g s g' s' p a :
  built_from StickerFormatType StickerType str_foreign g s p a ->
  built_from StickerFormatType StickerType str_foreign g' s' p
    (with_owner g' s' a).
Proof. intros []. by split. Qed.

(** X5: the owner of a sticker comes from the arguments of the
    constructor and from nowhere else: [_state] and [guild_id] are the
    state and the guild's id handed in, whatever the payload holds, and
    the same payload built for another guild and state gives the same
    sticker but for these two slots.  The [guild] property then asks
    that state for that id. *)
Theorem owner_from_arguments (_get_guild : value -> value -> result value)
    gd state g' s' p a :
  __init__ StickerFormatType StickerType str_foreign gd state p = Ok a ->
  _state a = state
  /\ guild_id a = Guild.id gd
  /\ guild _get_guild a = _get_guild state (Guild.id gd)
  /\ from_data' g' s' p = Ok (with_owner g' s' a).
Proof.
  unfold __init__. intros H%from_data_built.
  pose proof (with_owner_built _ _ g' s' _ _ H) as H'%built_from_data.
  destruct H as [Hs Hg]. unfold guild. by rewrite Hs, Hg.
Qed.

(** X6: two constructed stickers are equal exactly when [int] sends the
    [id] values of their payloads to the same number, whatever else the
    payloads, the guilds and the states are. *)
Theorem eq_by_payload_id g s g' s' p q a b :
  from_data' g s p = Ok a -> from_data' g' s' q = Ok b ->
  exists x y, p !! "id" = Some x /\ q !! "id" = Some y
    /\ py_int x = Ok (id a) /\ py_int y = Ok (id b)
    /\ (__eq__ a (OSticker b) = true <-> py_int x = py_int y).
Proof.
  intros [_ _ (x & Hx & Hix)]%from_data_built
         [_ _ (y & Hy & Hiy)]%from_data_built.
  exists x, y. repeat split; try done; simpl.
  - intros E%Z.eqb_eq. rewrite Hix, Hiy. by rewrite E.
  - rewrite Hix, Hiy. intros [= E]. by apply Z.eqb_eq.
Qed.

(** X7: which [KeyError] comes out.  Construction raises [KeyError k]
    exactly when [k] is the first required key, in the order [id],
    [name], [description], [format_type], [type], [version],
    [available], that the payload lacks, and [int] accepted what was
    converted before [k] is read: the [id] unless [k] is [id] itself,
    and the [pack_id] too when [k] comes after [description]. *)
Theorem key_error_is_first_missing gid state p k :
  from_data' gid state p = Raise (KeyError k)
  <-> List.find (is_missing p) required_keys = Some k
      /\ (k <> "id" -> not_numeric p "id" = false)
      /\ (k ∈ keys_after_pack_id -> not_numeric p "pack_id" = false).
Proof.
  unfold_from_data.
  unfold not_numeric, required_keys, keys_after_pack_id.
  cbn [List.find]. unfold is_missing.
  repeat (case_match; simplify_eq/=);
    repeat match goal with
      | E : py_int ?x = Raise ?e |- _ =>
          lazymatch goal with
          | _ : e = ValueError \/ e = TypeError |- _ => fail
          | _ => pose proof (py_int_raises _ _ E)
          end
      end;
    repeat match goal with
      | E : py_int ?x = _ |- context [py_int ?x] => rewrite E
      end; simpl;
    (split;
     [ intros E; simplify_eq;
       try (exfalso; match goal with H : _ \/ _ |- _ => by destruct H end);
       repeat split; try done;
       intros Hin%list_elem_of_In; simpl in Hin; intuition congruence
     | intros (E & Hid & Hpack); simplify_eq; try done; exfalso;
       first [ by (assert (true = false) by (by apply Hid))
             | by (assert (true = false)
                     by (apply Hpack, list_elem_of_In; simpl; tauto)) ] ]).
Qed.

(** X8: the [AttributeError] is the last failure there is: construction
    raises it exactly when no required key is missing, [int] accepts
    [id] and [pack_id], and [tags] is there without being a [str]; the
    missing attribute is then [split]. *)
Theorem attribute_error_is_last gid state p a :
  from_data' gid state p = Raise (AttributeError a)
  <-> a = "split" /\ fails_as_specified p = false /\ tags_not_str p = true.
Proof.
  unfold_from_data.
  unfold fails_as_specified, tags_not_str, not_numeric, missing_required,
    required_keys.
  cbn [existsb]. unfold is_missing.
  repeat (case_match; simplify_eq/=);
    repeat match goal with
      | E : py_int ?x = Raise ?e |- _ =>
          lazymatch goal with
          | _ : e = ValueError \/ e = TypeError |- _ => fail
          | _ => pose proof (py_int_raises _ _ E)
          end
      end;
    repeat match goal with
      | E : py_int ?x = _ |- context [py_int ?x] => rewrite E
      end; simpl; rewrite ?orb_true_r;
    (split;
     [ intros E; simplify_eq;
       try (exfalso; match goal with H : _ \/ _ |- _ => by destruct H end);
       done
     | intros (E & Hf & Ht); by simplify_eq ]).
Qed.

(** X9: where an error of [int] comes from.  Construction raises the
    [ValueError] or [TypeError] of [int] exactly when [int] raises it on
    the [id], or when [int] accepts the [id], [name] and [description]
    are there and [int] raises it on the [pack_id]: a bad [id] is
    reported before any other defect but its own absence, a bad
    [pack_id] before the keys read after it. *)
Theorem int_error_origin gid state p e :
  e = ValueError \/ e = TypeError ->
  from_data' gid state p = Raise e
  <-> (exists v, p !! "id" = Some v /\ py_int v = Raise e)
      \/ (not_numeric p "id" = false
          /\ is_missing p "id" = false /\ is_missing p "name" = false
          /\ is_missing p "description" = false
          /\ exists v, p !! "pack_id" = Some v /\ py_int v = Raise e).
Proof.
  intros He. unfold_from_data. unfold not_numeric, is_missing.
  destruct (p !! "id") as [raw|] eqn:Hid; simpl; [|other_failure He].
  destruct (py_int raw) as [n|e0] eqn:Hraw; simpl.
  2:{ split; [intros [= <-]; left; eauto|].
      intros [(? & ? & ?) | (? & _)]; [congruence | done]. }
  destruct (p !! "name"); simpl; [|other_failure He].
  destruct (p !! "description"); simpl; [|other_failure He].
  destruct (p !! "pack_id") as [pk|] eqn:Hpk; simpl.
  - destruct (py_int pk) as [m|e0] eqn:Hint; simpl.
    + repeat (case_match; simplify_eq/=); other_failure He.
    + split; [intros [= <-]; right; eauto 10|].
      intros [(? & ? & ?) | (_ & _ & _ & _ & ? & ? & ?)]; congruence.
  - repeat (case_match; simplify_eq/=); other_failure He.
Qed.

End Construction_order.

(** ** Strings: [split], [strip] and [join] *)

Lemma split_length sep s :
  length (split sep s) = S (count_char sep s).
Proof.
  induction s as [|c s IH]; simpl; [done|].
  destruct (Ascii.eqb c sep); simpl; [by rewrite IH|].
  destruct (split sep s) as [|piece rest] eqn:E; [|by rewrite <- IH].
  by apply split_not_nil in E.
Qed.

Lemma split_all_chars f sep s :
  all_chars f s = true -> Forall (fun piece => all_chars f piece = true) (split sep s).
Proof.
  induction s as [|c s IH]; simpl; [by repeat constructor|].
  intros [Hc Hs]%andb_true_iff. specialize (IH Hs).
  destruct (Ascii.eqb c sep); [by constructor|].
  destruct IH as [|piece rest Hp Hr]; constructor; simpl;
    rewrite ?Hc; simpl; try done; by constructor.
Qed.

Lemma split_no_sep sep s :
  Forall (fun piece => count_char sep piece = 0%nat) (split sep s).
Proof.
  induction s as [|c s IH]; simpl; [by repeat constructor|].
  destruct (Ascii.eqb c sep) eqn:E; [by constructor|].
  destruct IH as [|piece rest Hp Hr]; constructor; simpl; try done;
    by rewrite E.
Qed.

Lemma join_split sep s : join (String sep "") (split sep s) = s.
Proof.
  induction s as [|c s IH]; simpl; [done|].
  destruct (Ascii.eqb_spec c sep) as [-> | Hne].
  - destruct (split sep s) as [|piece rest] eqn:E;
      [by apply split_not_nil in E|].
    cbn [join]. cbv [String.append]. by rewrite <- IH.
  - destruct (split sep s) as [|piece [|piece' rest]] eqn:E;
      [by apply split_not_nil in E | |].
    + simpl in *. by rewrite IH.
    + cbn [join] in *. rewrite <- IH. done.
Qed.

Lemma lstrip_first s c :
  first_char (lstrip s) = Some c -> isspace c = false.
Proof.
  induction s as [|c' s IH]; simpl; [done|].
  destruct (isspace c') eqn:E; [done|]. simpl. by intros [= <-].
Qed.

Lemma lstrip_id s :
  (forall c, first_char s = Some c -> isspace c = false) -> lstrip s = s.
Proof.
  destruct s as [|c s]; simpl; [done|]. intros H. by rewrite (H c).
Qed.

Lemma rstrip_first s c :
  first_char s = Some c -> isspace c = false -> first_char (rstrip s) = Some c.
Proof.
  destruct s as [|c' s]; simpl; [done|]. intros [= ->] Hc.
  destruct (rstrip s); [by rewrite Hc | done].
Qed.

Lemma rstrip_last s c :
  last_char (rstrip s) = Some c -> isspace c = false.
Proof.
  induction s as [|c' s IH]; simpl; [done|].
  destruct (rstrip s) as [|d r] eqn:E.
  - destruct (isspace c') eqn:Hc; simpl; [done|]. by intros [= <-].
  - simpl. apply IH.
Qed.

Lemma rstrip_idemp s : rstrip (rstrip s) = rstrip s.
Proof.
  induction s as [|c s IH]; simpl; [done|].
  destruct (rstrip s) as [|d r] eqn:E.
  - destruct (isspace c) eqn:Hc; simpl; [done|]. by rewrite Hc.
  - change (rstrip (String c (String d r))) with
      (match rstrip (String d r) with
       | EmptyString => if isspace c then EmptyString else String c EmptyString
       | x => String c x
       end).
    by rewrite IH.
Qed.

Lemma strip_idemp s : strip (strip s) = strip s.
Proof.
  unfold strip. rewrite (lstrip_id (rstrip (lstrip s))); [apply rstrip_idemp|].
  intros c Hc. destruct (lstrip s) as [|c' s'] eqn:E; [done|].
  assert (Hsp : isspace c' = false) by (apply (lstrip_first s); by rewrite E).
  rewrite (rstrip_first _ c') in Hc by done. by simplify_eq.
Qed.

Lemma strip_first s c : first_char (strip s) = Some c -> isspace c = false.
Proof.
  unfold strip. intros Hc. destruct (lstrip s) as [|c' s'] eqn:E; [done|].
  assert (Hsp : isspace c' = false) by (apply (lstrip_first s); by rewrite E).
  rewrite (rstrip_first _ c') in Hc by done. by simplify_eq.
Qed.

Lemma lstrip_all_chars f s : all_chars f s = true -> all_chars f (lstrip s) = true.
Proof.
  induction s as [|c s IH]; simpl; [done|].
  intros [Hc Hs]%andb_true_iff.
  destruct (isspace c); [by apply IH|]. simpl. by rewrite Hc.
Qed.

Lemma rstrip_all_chars f s : all_chars f s = true -> all_chars f (rstrip s) = true.
Proof.
  induction s as [|c s IH]; simpl; [done|].
  intros [Hc Hs]%andb_true_iff. specialize (IH Hs).
  destruct (rstrip s); [destruct (isspace c)|]; simpl in *; by rewrite ?Hc.
Qed.

Lemma count_char_all_chars c s :
  count_char c s = 0%nat <-> all_chars (fun c' => negb (Ascii.eqb c' c)) s = true.
Proof.
  induction s as [|c' s IH]; simpl; [done|].
  destruct (Ascii.eqb c' c); simpl; [done|]. done.
Qed.

Lemma strip_no_space s :
  all_chars (fun c => negb (isspace c)) s = true -> strip s = s.
Proof.
  intros H. unfold strip. rewrite lstrip_id.
  - induction s as [|c s IH]; simpl in *; [done|].
    apply andb_true_iff in H as [Hc Hs]. rewrite (IH Hs).
    destruct s; [|done]. by destruct (isspace c).
  - destruct s as [|c s]; simpl in *; [done|]. intros c' [= <-].
    apply andb_true_iff in H as [Hc _]. by destruct (isspace c).
Qed.

(** ** The tags of a constructed sticker *)

Section Tags.

Context (StickerFormatType StickerType : EnumClass).
Context (str_foreign : value -> string).

Lemma tags_of_payload gid state p st :
  _from_data StickerFormatType StickerType str_foreign gid state p = Ok st ->
  tags st = match p !! "tags" with
            | Some (VStr s) => map strip (split "," s)
            | _ => []
            end.
Proof.
  intros [_ _ _ _ _ _ _ _ _ _ _ Htags _]%from_data_built.
  by destruct (p !! "tags") as [[]|].
Qed.

(** X10: a sticker has one tag more than its payload's [tags] string has
    commas; in particular it has at least one tag whenever the key is
    there. *)
Theorem tags_count gid state p st s :
  _from_data StickerFormatType StickerType str_foreign gid state p = Ok st ->
  p !! "tags" = Some (VStr s) ->
  length (tags st) = S (count_char "," s).
Proof.
  intros H%tags_of_payload Hs. rewrite H, Hs.
  by rewrite length_map, split_length.
Qed.

(** X11: every tag of a constructed sticker is clean: it holds no comma,
    it neither begins nor ends with whitespace, and stripping it again
    changes nothing. *)
Theorem tags_clean gid state p st :
  _from_data StickerFormatType StickerType str_foreign gid state p = Ok st ->
  Forall (fun tag =>
            count_char "," tag = 0%nat
            /\ strip tag = tag
            /\ (forall c, first_char tag = Some c -> isspace c = false)
            /\ (forall c, last_char tag = Some c -> isspace c = false))
         (tags st).
Proof.
  intros ->%tags_of_payload.
  destruct (p !! "tags") as [[| | |s| | |]|]; try by constructor.
  apply Forall_fmap. eapply Forall_impl; [apply (split_no_sep "," s)|].
  intros piece Hp. simpl. repeat split.
  - apply count_char_all_chars. unfold strip.
    by apply rstrip_all_chars, lstrip_all_chars, count_char_all_chars.
  - apply strip_idemp.
  - apply strip_first.
  - apply rstrip_last.
Qed.

(** X12: when the payload's [tags] string holds no whitespace, joining
    the tags of the sticker with commas gives the string back. *)
Theorem tags_join gid state p st s :
  _from_data StickerFormatType StickerType str_foreign gid state p = Ok st ->
  p !! "tags" = Some (VStr s) ->
  all_chars (fun c => negb (isspace c)) s = true ->
  join "," (tags st) = s.
Proof.
  intros H%tags_of_payload Hs Hsp. rewrite H, Hs.
  rewrite <- (join_split "," s) at 2. f_equal.
  rewrite <- (map_id (split "," s)) at 2.
  apply map_ext_Forall.
  eapply Forall_impl; [apply (split_all_chars _ "," s Hsp)|].
  intros piece Hp. by apply strip_no_space.
Qed.

End Tags.

(** ** Iteration *)

Lemma iterator_filter self :
  _iterator self = List.filter present (public_fields self).
Proof.
  unfold public_fields. rewrite !filter_cons_yield.
  unfold _iterator, present. by cbn -[is_None].
Qed.

Lemma filter_fst_sublist {A B} (f : A * B -> bool) (l : list (A * B)) :
  (List.filter f l).*1 `sublist_of` l.*1.
Proof.
  induction l as [|x l IH]; simpl; [constructor|].
  destruct (f x); simpl; by constructor.
Qed.

Lemma public_fields_names self : (public_fields self).*1 = public_slots.
Proof. reflexivity. Qed.

Lemma public_slots_NoDup : NoDup public_slots.
Proof. apply NoDup_ListNoDup. unfold public_slots.
  repeat (constructor; [simpl; intuition congruence|]). constructor.
Qed.

Lemma iterator_elem self k v :
  (k, v) ∈ _iterator self <-> (k, v) ∈ public_fields self /\ v <> VNone.
Proof.
  rewrite iterator_filter, !list_elem_of_In, List.filter_In.
  unfold present. cbn [snd].
  destruct v; cbn [is_None negb]; intuition congruence.
Qed.

Lemma public_fields_getattr self k v :
  (k, v) ∈ public_fields self <-> k ∈ public_slots /\ getattr self k VNone = v.
Proof.
  rewrite !list_elem_of_In. unfold public_fields, public_slots. simpl. split.
  - intros H.
    repeat (destruct H as [[= <- <-] | H]; [by (split; [tauto | reflexivity])|]).
    done.
  - intros [H <-].
    repeat (destruct H as [<- | H]; [cbv [getattr]; simpl; tauto|]).
    done.
Qed.

(** X13: what iteration yields has a fixed shape: between four and
    twelve pairs, no field name twice, never the state, never a value
    [None]; [id], [pack_id], [format] and [tags] are always among them. *)
Theorem iterator_shape (self : Sticker) :
  NoDup ((_iterator self).*1)
  /\ ("_state" ∉ (_iterator self).*1)
  /\ Forall (fun kv => kv.2 <> VNone) (_iterator self)
  /\ (4 <= length (_iterator self) <= 12)%nat
  /\ ("id", VInt (id self)) ∈ _iterator self
  /\ ("pack_id", VInt (pack_id self)) ∈ _iterator self
  /\ ("format", VStr (format self)) ∈ _iterator self
  /\ ("tags", VList (VStr <$> tags self)) ∈ _iterator self.
Proof.
  assert (Hsub : (_iterator self).*1 `sublist_of` public_slots).
  { rewrite iterator_filter, <- (public_fields_names self).
    apply filter_fst_sublist. }
  split; [by eapply sublist_NoDup; [apply public_slots_NoDup|]|].
  split.
  { intros Hin. eapply elem_of_sublist in Hin; [|exact Hsub].
    apply list_elem_of_In in Hin. simpl in Hin. intuition congruence. }
  split.
  { apply Forall_forall. intros [k v] Hin%iterator_elem. by destruct Hin. }
  split.
  { split.
    - rewrite iterator_filter. unfold public_fields.
      rewrite !filter_cons_yield, !length_app. unfold present. simpl.
      repeat case_match; simpl; lia.
    - apply sublist_length in Hsub. by rewrite length_fmap in Hsub. }
  repeat split; apply iterator_elem; (split; [|done]);
    apply list_elem_of_In; simpl; tauto.
Qed.

(** X14: collecting what iteration yields in a dict gives, for every
    name, the attribute of that name when the name is a public slot and
    the attribute is not [None], and no entry otherwise. *)
Theorem iterator_as_dict (self : Sticker) (k : string) (v : value) :
  (list_to_map (_iterator self) : gmap string value) !! k = Some v
  <-> k ∈ public_slots /\ getattr self k VNone = v /\ v <> VNone.
Proof.
  assert (Hnd : NoDup (_iterator self).*1).
  { eapply sublist_NoDup; [apply public_slots_NoDup|].
    rewrite iterator_filter, <- (public_fields_names self).
    apply filter_fst_sublist. }
  rewrite <- (elem_of_list_to_map _ _ _ Hnd).
  rewrite iterator_elem, public_fields_getattr. tauto.
Qed.

Section Iterate_constructed.

Context (StickerFormatType StickerType : EnumClass).
Context (str_foreign : value -> string).

(** X15: iterating over a constructed sticker shows the payload's value
    of [name], [description], [version] and [available] unless it is
    [null], the preview image unless [preview_asset] is absent or
    [null], and the image, which is the empty string for a payload
    without [asset], unless [asset] is [null]. *)
Theorem iterate_constructed gid state p st k v :
  _from_data StickerFormatType StickerType str_foreign gid state p = Ok st ->
  (k ∈ ["name"; "description"; "version"; "available"] ->
     ((k, v) ∈ _iterator st <-> p !! k = Some v /\ v <> VNone))
  /\ (("preview_image", v) ∈ _iterator st
      <-> p !! "preview_asset" = Some v /\ v <> VNone)
  /\ (("image", v) ∈ _iterator st
      <-> default (VStr "") (p !! "asset") = v /\ v <> VNone).
Proof.
  intros [_ _ _ Hn Hd _ _ Hi _ Hv Ha _ Hpre]%from_data_built.
  rewrite !iterator_elem, !public_fields_getattr.
  assert (Hin : forall x, In x public_slots -> x ∈ public_slots)
    by (intros x; apply list_elem_of_In).
  split; [|split].
  - intros Hk%list_elem_of_In. simpl in Hk.
    destruct Hk as [<- | [<- | [<- | [<- | []]]]]; cbv [getattr]; simpl;
      (split; [intros ((_ & <-) & Hne); by split
              | intros [E Hne]; repeat split; try done;
                [apply Hin; simpl; tauto | congruence]]).
  - cbv [getattr]; simpl. rewrite Hpre. split.
    + intros ((_ & E) & Hne). split; [|done].
      destruct (p !! "preview_asset"); simpl in E; congruence.
    + intros [E Hne]. rewrite E. repeat split; try done.
      apply Hin; simpl; tauto.
  - cbv [getattr]; simpl. rewrite Hi. split.
    + by intros ((_ & E) & Hne).
    + intros [E Hne]. repeat split; try done. apply Hin; simpl; tauto.
Qed.

End Iterate_constructed.

(** ** The id in decimal *)

Lemma digit_value_pretty_N_char r :
  (r < 10)%N -> digit_value (pretty_N_char r) = Some (Z.of_N r).
Proof.
  intros H.
  assert (r = 0 \/ r = 1 \/ r = 2 \/ r = 3 \/ r = 4 \/ r = 5 \/ r = 6
          \/ r = 7 \/ r = 8 \/ r = 9)%N as Hr by lia.
  repeat (destruct Hr as [-> | Hr]; [reflexivity|]). by subst.
Qed.

Lemma scan_pretty_N_go x :
  exists k : nat, forall s acc,
    scan_digits (pretty_N_go x s) false acc
    = scan_digits s false (acc * 10 ^ Z.of_nat k + Z.of_N x).
Proof.
  induction (N.lt_wf_0 x) as [x _ IH].
  destruct (decide (x = 0)%N) as [-> | Hx].
  { exists 0%nat. intros s acc. rewrite pretty_N_go_0. f_equal. simpl. lia. }
  destruct (IH (x `div` 10)%N) as [k Hk]; [apply N.div_lt; lia|].
  exists (S k). intros s acc.
  rewrite pretty_N_go_step, Hk by lia. cbn [scan_digits].
  rewrite digit_value_pretty_N_char by (apply N.mod_lt; lia).
  f_equal. rewrite Nat2Z.inj_succ, Z.pow_succ_r by lia.
  rewrite N2Z.inj_div, N2Z.inj_mod.
  pose proof (Z.div_mod (Z.of_N x) 10). lia.
Qed.

Lemma pretty_N_go_first x s :
  (0 < x)%N \/ (exists c r, s = String c r /\ is_Some (digit_value c)) ->
  exists c r, pretty_N_go x s = String c r /\ is_Some (digit_value c).
Proof.
  revert s. induction (N.lt_wf_0 x) as [x _ IH]. intros s H.
  destruct (decide (x = 0)%N) as [-> | Hx].
  { rewrite pretty_N_go_0. destruct H as [H|H]; [lia | done]. }
  rewrite pretty_N_go_step by lia. apply IH; [apply N.div_lt; lia|].
  right. eexists _, _. split; [done|].
  rewrite digit_value_pretty_N_char by (apply N.mod_lt; lia). by eexists.
Qed.

(** What [int] does with a string that starts with a digit, with or
    without a minus sign in front. *)
Lemma int_of_str_digits c r :
  is_Some (digit_value c) ->
  int_of_str (String c r)
  = ('(n, rest) ← scan_digits (String c r) false 0;
     if all_int_space rest then Some n else None)
  /\ int_of_str (String "-" (String c r))
     = ('(n, rest) ← scan_digits (String c r) false 0;
        if all_int_space rest then Some (- n) else None).
Proof.
  intros [d Hd]. unfold int_of_str.
  destruct c as [[] [] [] [] [] [] [] []]; try discriminate Hd;
    by rewrite ?Hd.
Qed.

Lemma int_of_str_pretty n : int_of_str (pretty n) = Some n.
Proof.
  assert (Hpos : forall q, exists c r,
             pretty_N (N.pos q) = String c r /\ is_Some (digit_value c)
             /\ scan_digits (String c r) false 0 = Some (Z.pos q, "")).
  { intros q. unfold pretty_N. rewrite decide_False by done.
    destruct (pretty_N_go_first (N.pos q) "") as (c & r & E & Hc); [lia|].
    exists c, r. repeat split; try done. rewrite <- E.
    destruct (scan_pretty_N_go (N.pos q)) as [k Hk]. by rewrite Hk. }
  destruct n as [|q|q]; [done| |];
    destruct (Hpos q) as (c & r & E & Hc & Hs);
    unfold pretty, pretty_Z, pretty_positive, pretty; rewrite E.
  - by rewrite (proj1 (int_of_str_digits c r Hc)), Hs.
  - change ("-" +:+ String c r) with (String "-" (String c r)).
    by rewrite (proj2 (int_of_str_digits c r Hc)), Hs.
Qed.

Section Decimal_id.

Context (StickerFormatType StickerType : EnumClass).
Context (str_foreign : value -> string).

(** X16: the id goes through its decimal form unharmed: [int] reads
    back every integer that [str] prints, so a sticker built from a
    payload whose [id] is the decimal string of [n] has the id [n] and
    is equal to every sticker of that id. *)
Theorem id_from_decimal gid state p st other n :
  _from_data StickerFormatType StickerType str_foreign gid state p = Ok st ->
  p !! "id" = Some (VStr (pretty n)) ->
  py_int (VStr (pretty n)) = Ok n
  /\ id st = n
  /\ (id other = n -> __eq__ st (OSticker other) = true).
Proof.
  intros [_ _ (raw & Hraw & Hint)]%from_data_built Hp.
  assert (E : py_int (VStr (pretty n)) = Ok n)
    by (simpl; by rewrite int_of_str_pretty).
  rewrite Hp in Hraw. injection Hraw as <-.
  rewrite E in Hint. injection Hint as Hid.
  repeat split; try done. simpl. intros ->. by apply Z.eqb_eq.
Qed.

End Decimal_id.

(** ** The token names the sticker *)

Lemma app_cons c x y : String c x +:+ y = String c (x +:+ y).
Proof. reflexivity. Qed.

Lemma app_empty y : "" +:+ y = y.
Proof. reflexivity. Qed.

Lemma count_char_app c x y :
  count_char c (x +:+ y) = (count_char c x + count_char c y)%nat.
Proof.
  induction x as [|c' x IH]; [done|].
  rewrite app_cons. simpl. rewrite IH. lia.
Qed.

Lemma pretty_N_go_chars f x s :
  (forall r, f (pretty_N_char r) = true) ->
  all_chars f s = true -> all_chars f (pretty_N_go x s) = true.
Proof.
  intros Hf. revert s. induction (N.lt_wf_0 x) as [x _ IH]. intros s Hs.
  destruct (decide (x = 0)%N) as [-> | Hx]; [by rewrite pretty_N_go_0|].
  rewrite pretty_N_go_step by lia. apply IH; [apply N.div_lt; lia|].
  simpl. by rewrite Hf, Hs.
Qed.

Lemma pretty_Z_chars f (n : Z) :
  all_chars f "0123456789-" = true -> all_chars f (pretty n) = true.
Proof.
  intros H. simpl in H.
  repeat (apply andb_true_iff in H as [? H]).
  assert (Hf : forall r, f (pretty_N_char r) = true)
    by (intros r; unfold pretty_N_char; by repeat case_match).
  assert (HN : forall q, all_chars f (pretty_N (N.pos q)) = true).
  { intros q. unfold pretty_N. rewrite decide_False by done.
    by apply pretty_N_go_chars. }
  destruct n as [|q|q]; unfold pretty, pretty_Z, pretty_positive, pretty.
  - simpl. by rewrite andb_true_r.
  - apply HN.
  - rewrite app_cons, app_empty. simpl. rewrite HN. by rewrite andb_true_r.
Qed.

Lemma pretty_Z_no_char c (n : Z) :
  all_chars (fun c' => negb (Ascii.eqb c' c)) "0123456789-" = true ->
  count_char c (pretty n) = 0%nat.
Proof. intros H. by apply count_char_all_chars, pretty_Z_chars. Qed.

(** What follows the last delimiter, and what precedes it. *)
Lemma last_delimiter d x y p q :
  count_char d p = 0%nat -> count_char d q = 0%nat ->
  x +:+ String d p = y +:+ String d q -> x = y /\ p = q.
Proof.
  intros Hp Hq. revert y.
  induction x as [|c x IH]; intros [|c' y]; rewrite ?app_cons, ?app_empty.
  - by intros [= ->].
  - intros [= -> ->]. rewrite count_char_app in Hp. simpl in Hp.
    rewrite Ascii.eqb_refl in Hp. lia.
  - intros [= -> <-]. rewrite count_char_app in Hq. simpl in Hq.
    rewrite Ascii.eqb_refl in Hq. lia.
  - intros [= -> H]. by destruct (IH _ H) as [-> ->].
Qed.

Section Token.

Context (str_foreign : value -> string).

Lemma token_tail n (i : Z) n' (i' : Z) :
  n +:+ ":" +:+ pretty i +:+ ">" = n' +:+ ":" +:+ pretty i' +:+ ">" ->
  n = n' /\ i = i'.
Proof.
  rewrite !(app_cons ":"), !app_empty. intros H.
  apply last_delimiter in H as [-> H];
    try (rewrite count_char_app, pretty_Z_no_char by done; done).
  split; [done|].
  assert (H' : pretty i +:+ String ">" "" = pretty i' +:+ String ">" "")
    by done.
  apply last_delimiter in H' as [H' _]; [|done..].
  by apply (inj pretty).
Qed.

(** X17: the token names the sticker: two stickers that print alike
    have the same id, hence are equal, have names that print alike, and
    are both animated or both not. *)
Theorem str_determines_id (a b : Sticker) :
  __str__ str_foreign a = __str__ str_foreign b ->
  id a = id b
  /\ __eq__ a (OSticker b) = true
  /\ py_str str_foreign (name a) = py_str str_foreign (name b)
  /\ is_animated a = is_animated b.
Proof.
  unfold __str__, is_animated. rewrite !animated_test.
  do 2 case_bool_decide; rewrite !app_cons, !app_empty; intros Heq;
    try discriminate Heq;
    injection Heq as Heq; apply token_tail in Heq as [Hn Hi];
    repeat split; try done; simpl; by apply Z.eqb_eq.
Qed.

End Token.

(** ** The further theorems at concrete payloads *)

Lemma unread_keys_ignored_witness :
  Example.construct Sample.with_guild_id = Example.construct Example.minimal.
Proof.
  apply (unread_keys_ignored Example.StickerFormatType Example.StickerType
           Example.str_foreign (Guild.id Example.guild) Example.state
           Example.minimal "guild_id" (VInt 5)).
  intros H%list_elem_of_In. simpl in H. intuition discriminate.
Defined.

Lemma owner_from_arguments_witness :
  Example.construct Sample.with_guild_id = Ok Example.minimal_sticker
  /\ guild_id Example.minimal_sticker = Guild.id Example.guild
  /\ guild Sample.no_guild Example.minimal_sticker = Ok VNone.
Proof.
  assert (H : Example.construct Sample.with_guild_id
              = Ok Example.minimal_sticker) by (vm_compute; reflexivity).
  split; [exact H|].
  destruct (owner_from_arguments
              Example.StickerFormatType Example.StickerType
              Example.str_foreign Sample.no_guild Example.guild Example.state
              Sample.other_guild_id Sample.other_state
              Sample.with_guild_id Example.minimal_sticker H)
    as (_ & Hg & Hl & _).
  split; [exact Hg | exact Hl].
Defined.

Lemma eq_by_payload_id_witness :
  Example.construct Example.minimal = Ok Example.minimal_sticker
  /\ Example.construct Example.full = Ok Example.full_sticker
  /\ exists x y, Example.minimal !! "id" = Some x
       /\ Example.full !! "id" = Some y
       /\ py_int x = Ok (id Example.minimal_sticker)
       /\ py_int y = Ok (id Example.full_sticker)
       /\ (__eq__ Example.minimal_sticker (OSticker Example.full_sticker) = true
           <-> py_int x = py_int y).
Proof.
  assert (H1 : Example.construct Example.minimal = Ok Example.minimal_sticker)
    by (vm_compute; reflexivity).
  assert (H2 : Example.construct Example.full = Ok Example.full_sticker)
    by (vm_compute; reflexivity).
  split; [exact H1|]. split; [exact H2|].
  exact (eq_by_payload_id Example.StickerFormatType Example.StickerType
           Example.str_foreign _ _ _ _ _ _ _ _ H1 H2).
Defined.

Lemma int_error_origin_witness :
  Example.construct Sample.bad_id = Raise ValueError.
Proof.
  apply (int_error_origin Example.StickerFormatType Example.StickerType
           Example.str_foreign (Guild.id Example.guild) Example.state
           Sample.bad_id ValueError); [by left|].
  left. exists (VStr "abc"). split; vm_compute; reflexivity.
Defined.

Lemma tags_count_witness :
  Example.construct Example.full = Ok Example.full_sticker
  /\ length (tags Example.full_sticker) = 3%nat.
Proof.
  assert (H : Example.construct Example.full = Ok Example.full_sticker)
    by (vm_compute; reflexivity).
  split; [exact H|].
  apply (tags_count Example.StickerFormatType Example.StickerType
           Example.str_foreign _ _ Example.full Example.full_sticker
           "a, b ,c" H).
  vm_compute; reflexivity.
Defined.

Lemma tags_clean_witness :
  Example.construct Example.full = Ok Example.full_sticker
  /\ Forall (fun tag =>
               count_char "," tag = 0%nat
               /\ strip tag = tag
               /\ (forall c, first_char tag = Some c -> isspace c = false)
               /\ (forall c, last_char tag = Some c -> isspace c = false))
            (tags Example.full_sticker).
Proof.
  assert (H : Example.construct Example.full = Ok Example.full_sticker)
    by (vm_compute; reflexivity).
  split; [exact H|].
  exact (tags_clean Example.StickerFormatType Example.StickerType
           Example.str_foreign _ _ Example.full Example.full_sticker H).
Defined.

Lemma tags_join_witness :
  Example.construct Sample.comma_tags = Ok Sample.comma_tags_sticker
  /\ join "," (tags Sample.comma_tags_sticker) = "a,,b".
Proof.
  assert (H : Example.construct Sample.comma_tags
              = Ok Sample.comma_tags_sticker) by (vm_compute; reflexivity).
  split; [exact H|].
  apply (tags_join Example.StickerFormatType Example.StickerType
           Example.str_foreign _ _ Sample.comma_tags
           Sample.comma_tags_sticker "a,,b" H); vm_compute; reflexivity.
Defined.

Lemma iterate_constructed_witness :
  Example.construct Sample.null_description
  = Ok Sample.null_description_sticker
  /\ (("description", VNone) ∈ _iterator Sample.null_description_sticker
      <-> Sample.null_description !! "description" = Some VNone
          /\ VNone <> VNone).
Proof.
  assert (H : Example.construct Sample.null_description
              = Ok Sample.null_description_sticker)
    by (vm_compute; reflexivity).
  split; [exact H|].
  destruct (iterate_constructed
              Example.StickerFormatType Example.StickerType
              Example.str_foreign _ _ Sample.null_description
              Sample.null_description_sticker "description" VNone H)
    as [Hk _].
  apply Hk. apply list_elem_of_In. simpl. tauto.
Defined.

Lemma id_from_decimal_witness :
  Example.construct Example.minimal = Ok Example.minimal_sticker
  /\ id Example.minimal_sticker = 123.
Proof.
  assert (H : Example.construct Example.minimal = Ok Example.minimal_sticker)
    by (vm_compute; reflexivity).
  split; [exact H|].
  destruct (id_from_decimal
              Example.StickerFormatType Example.StickerType
              Example.str_foreign _ _ Example.minimal
              Example.minimal_sticker Example.full_sticker 123 H)
    as (_ & Hid & _); [vm_compute; reflexivity | exact Hid].
Defined.

Lemma str_determines_id_witness :
  __str__ Example.str_foreign Example.full_sticker
  = __str__ Example.str_foreign Example.minimal_sticker
  /\ id Example.full_sticker = id Example.minimal_sticker.
Proof.
  assert (H : __str__ Example.str_foreign Example.full_sticker
              = __str__ Example.str_foreign Example.minimal_sticker)
    by reflexivity.
  split; [exact H|].
  apply (str_determines_id Example.str_foreign _ _ H).
Defined.
